(** * License server: key generator and license lifecycle

    A shallow embedding of the two variants of the license server and the
    proofs of their specification:

    - the file-backed variant (one JSON object in [licenses.json], keyed by
      license key), modules [KeyGen] and [FileBacked];
    - the document-store variant of [server.js] (a mongoose model with a
      unique index on [licenseKey]), modules [KeyGen] and [DocStore].

    Handlers are functions from the request, the inputs of the environment
    the handler consults (clock, entropy, success of a write) and the state
    before, to the response and the state after. *)

From Stdlib Require Import ZArith NArith Ascii String List Lia.
From Stdlib.Strings Require Import Byte.
From stdpp Require Import gmap strings list.

Local Open Scope Z_scope.

(* ===================================================================== *)
(** ** The JavaScript string operations the source uses                  *)
(* ===================================================================== *)

Module Js.

(** [String.prototype.toUpperCase] on the characters the source applies it
    to (the output of a hex or a base-36 rendering): a-z become A-Z, every
    other character stays. *)
Definition upper_ascii (c : ascii) : ascii :=
  let n := N_of_ascii c in
  if ((97 <=? n) && (n <=? 122))%N then ascii_of_N (n - 32) else c.

Fixpoint toUpperCase (s : string) : string :=
  match s with
  | EmptyString => EmptyString
  | String c s' => String (upper_ascii c) (toUpperCase s')
  end.

(** [s.substr(start, len)]: at most [len] characters from [start]. *)
Definition substr (start len : nat) (s : string) : string :=
  String.substring start len s.

(** [s.substring(a, b)]: both indices are clamped to [0, length] and
    swapped when out of order. [None] for [b] is the one-argument call. *)
Definition clamp (len : nat) (i : Z) : nat :=
  Nat.min len (Z.to_nat (Z.max 0 i)).

Definition substring (a : Z) (b : option Z) (s : string) : string :=
  let len := String.length s in
  let a' := clamp len a in
  let b' := match b with Some b => clamp len b | None => len end in
  String.substring (Nat.min a' b') (Nat.max a' b' - Nat.min a' b') s.

(** Digits of [Number.prototype.toString(radix)] and of
    [Buffer.toString('hex')]: lower case. *)
Definition digit (n : N) : ascii :=
  if (n <? 10)%N then ascii_of_N (48 + n) else ascii_of_N (87 + n).

Definition hex_of_byte (b : byte) : string :=
  let n := Byte.to_N b in
  String (digit (n / 16)) (String (digit (n mod 16)) EmptyString).

(** [buffer.toString('hex')] *)
Fixpoint hex (bytes : list byte) : string :=
  match bytes with
  | [] => EmptyString
  | b :: bytes' => hex_of_byte b +:+ hex bytes'
  end.

(** [n.toString(36)] for a non-negative integer [n]. *)
Fixpoint base36_pos (fuel : nat) (n : N) (acc : string) : string :=
  match fuel with
  | O => acc
  | S fuel' =>
      let acc' := String (digit (n mod 36)) acc in
      if (n <? 36)%N then acc' else base36_pos fuel' (n / 36) acc'
  end.

Definition toString36 (n : N) : string :=
  base36_pos (S (N.to_nat (N.log2 n))) n EmptyString.

End Js.

(* ===================================================================== *)
(** ** Key generator                                                     *)
(* ===================================================================== *)

Module KeyGen.

(** What the generator draws from its environment: the bytes
    [crypto.randomBytes] returned, or, when it threw, the rendering
    [Math.random().toString(36)] the fallback then computes. *)
Inductive entropy :=
| RandomBytes (bytes : list byte)
| CryptoFailed (random36 : string).

(** [crypto.randomBytes(12)] answers with twelve bytes (sixteen in the
    earlier revision). *)
Definition sized (e : entropy) : Prop :=
  match e with
  | RandomBytes bytes => (12 <= List.length bytes)%nat
  | CryptoFailed _ => True
  end.

(** [generateLicenseKey(prefix)] of both variants. *)
Definition generateLicenseKey (prefix : string) (e : entropy) : string :=
  match e with
  | RandomBytes randomBytes =>
      let randomHex := Js.toUpperCase (Js.hex randomBytes) in
      let section1 := Js.substr 0 8 randomHex in
      let section2 := Js.substr 8 8 randomHex in
      let section3 := Js.substr 16 8 randomHex in
      prefix +:+ "-" +:+ section1 +:+ "-" +:+ section2 +:+ "-" +:+ section3
  | CryptoFailed random36 =>
      prefix +:+ "-" +:+ Js.toUpperCase (Js.substring 2 (Some 10) random36)
  end.

(** [generateSecureLicenseKey(productCode)] of the earlier revision kept in
    [server.js]: sixteen bytes, no fallback. *)
Definition generateSecureLicenseKey (productCode : string) (randomBytes : list byte) : string :=
  let randomHex := Js.toUpperCase (Js.hex randomBytes) in
  let section1 := Js.substr 0 8 randomHex in
  let section2 := Js.substr 8 8 randomHex in
  let section3 := Js.substr 16 8 randomHex in
  productCode +:+ "-" +:+ section1 +:+ "-" +:+ section2 +:+ "-" +:+ section3.

(** The documented format [PREFIX-[0-9A-F]{8}-[0-9A-F]{8}-[0-9A-F]{8}]. *)
Definition is_upper_hex (c : ascii) : bool :=
  let n := N_of_ascii c in
  (((48 <=? n) && (n <=? 57)) || ((65 <=? n) && (n <=? 70)))%N.

Fixpoint all_upper_hex (s : string) : bool :=
  match s with
  | EmptyString => true
  | String c s' => is_upper_hex c && all_upper_hex s'
  end.

Definition segment (s : string) : Prop :=
  String.length s = 8%nat ∧ all_upper_hex s = true.

Definition key_format (prefix key : string) : Prop :=
  ∃ s1 s2 s3,
    segment s1 ∧ segment s2 ∧ segment s3 ∧
    key = prefix +:+ "-" +:+ s1 +:+ "-" +:+ s2 +:+ "-" +:+ s3.

End KeyGen.

(* ===================================================================== *)
(** ** Data model shared by the two variants                             *)
(* ===================================================================== *)

Module Model.

(** A [Date], as milliseconds since the epoch ([toISOString] in the
    file-backed variant is an injective rendering of it). *)
Definition timestamp := Z.

(** A license record. The license key is the key it is stored under. In
    the file-backed variant a record has no [deviceId] and no
    [activationDate] property until it is activated; the schema of the
    document-store variant defaults [deviceId] to [null]. *)
Record license := License {
  product : string;
  activated : bool;
  deviceId : option string;
  activationDate : option timestamp;
  createdAt : timestamp }.

(** A field of the JSON request body: not there, [null], or a string (the
    two fields of the interface are strings). *)
Inductive field :=
| Absent
| Null
| Str (s : string).

Record body := Body {
  body_licenseKey : field;
  body_deviceId : field }.

(** The body [{licenseKey: k, deviceId: d}]. *)
Definition json_body (licenseKey deviceId : string) : body :=
  Body (Str licenseKey) (Str deviceId).

(** JavaScript truthiness of a field, with the string when it is truthy:
    [!x] is false exactly for a non-empty string. *)
Definition truthy (f : field) : option string :=
  match f with
  | Str s => if decide (s = EmptyString) then None else Some s
  | _ => None
  end.

(** The JSON bodies the handlers send. [Error e m] is [{error: e}] with
    the [message] of the caught exception when the handler adds it;
    [SaveFailed e d] is [{error: e, details: d, code}] of the issuing
    handler of [server.js], without the driver's numeric code;
    [TemporaryKey k w] is [{licenseKey: k, temporary: true, warning: w}]. *)
Inductive reply :=
| Error (error : string) (message : option string)
| SaveFailed (error details : string)
| Status (status message : string)
| LicenseKey (licenseKey : string)
| TemporaryKey (licenseKey warning : string)
| Listing (licenses : gmap string license).

Record response := Response {
  code : Z;
  reply_of : reply }.

(** The record a new license starts as. *)
Definition pending (now : timestamp) : license :=
  {| product := "test_product"; activated := false; deviceId := None;
     activationDate := None; createdAt := now |}.

(** The three assignments of a first activation. *)
Definition bind (d : string) (now : timestamp) (l : license) : license :=
  {| product := product l; activated := true; deviceId := Some d;
     activationDate := Some now; createdAt := createdAt l |}.


(** In the store [m] the record under [k] is activated and bound to
    device [d]. *)
Definition bound_to (m : gmap string license) (k d : string) : Prop :=
  ∃ l, m !! k = Some l ∧ activated l = true ∧ deviceId l = Some d.

(** The three ways a request changes the records of a store: not at all,
    a first activation of a record, or a new record put under a key that
    satisfies [issued]. *)
Inductive store_step (issued : string → Prop) (m m' : gmap string license) : Prop :=
| step_same : m' = m → store_step issued m m'
| step_bind k d now r :
    m !! k = Some r → activated r = false →
    m' = <[k := bind d now r]> m → store_step issued m m'
| step_put k now :
    issued k → m' = <[k := pending now]> m → store_step issued m m'.

(** The responses of the two variants, word for word. *)
Definition bad_request : response :=
  Response 400 (Error "License key and device ID are required" None).
Definition not_found : response :=
  Response 404 (Error "Invalid license key" None).
Definition other_device : response :=
  Response 403 (Error "License key is already activated on another device" None).
Definition already_activated : response :=
  Response 200 (Status "activated" "License is already activated for this device").
Definition now_activated : response :=
  Response 200 (Status "activated" "License activated successfully").
Definition not_activated : response :=
  Response 403 (Error "License key is not activated" None).
Definition device_mismatch : response :=
  Response 403 (Error "License is not activated for this device" None).
Definition valid : response :=
  Response 200 (Status "valid" "License is valid").

End Model.

(* ===================================================================== *)
(** ** File-backed variant                                               *)
(* ===================================================================== *)

Module FileBacked.
Import Model KeyGen.

(** [licenses.json]: [readFileSync] throws, or the content does not parse,
    or it is a JSON object of license records. *)
Inductive file :=
| Unreadable
| Malformed
| Json (licenses : gmap string license).

(** [getLicenses] reads the file into a plain object and the handlers index
    it with the key of the request: [licenses[licenseKey]]. A plain object
    answers for its own properties and, after them, for those of
    [Object.prototype]: the accessor [__proto__], which is
    [Object.prototype] itself, and its methods. The activation handler
    assigns [activated], [deviceId] and [activationDate] to whatever
    [licenses[licenseKey]] is, so these objects of the process can come to
    carry the three properties too. [binding] is such a triple
    ([activated] is then [true]). *)
Record binding := Binding {
  bound_deviceId : string;
  bound_activationDate : timestamp }.

(** The server process: the file, the triple on [Object.prototype] (if
    assigned) and the triples on its methods, by method name. *)
Record process := Process {
  license_file : file;
  object_prototype : option binding;
  builtins : gmap string binding }.

Definition methods : list string :=
  ["constructor"; "hasOwnProperty"; "isPrototypeOf"; "propertyIsEnumerable";
   "toLocaleString"; "toString"; "valueOf"; "__defineGetter__";
   "__defineSetter__"; "__lookupGetter__"; "__lookupSetter__"].

(** What [licenses[licenseKey]] can evaluate to. *)
Inductive value :=
| VRecord (r : license)
| VObjectPrototype
| VMethod (name : string)
| VTrue
| VString (s : string)
| VDate (t : timestamp).

Definition getLicenses (p : process) : gmap string license :=
  match license_file p with
  | Json licenses => licenses
  | Unreadable | Malformed => ∅
  end.

Definition saveLicenses (write_ok : bool) (licenses : gmap string license)
    (p : process) : bool * process :=
  if write_ok
  then (true, Process (Json licenses) (object_prototype p) (builtins p))
  else (false, p).

(** [licenses[key]]; [None] is [undefined]. *)
Definition index (p : process) (licenses : gmap string license) (key : string)
    : option value :=
  match licenses !! key with
  | Some r => Some (VRecord r)
  | None =>
      if decide (key = "__proto__") then Some VObjectPrototype
      else if decide (key ∈ methods) then Some (VMethod key)
      else match object_prototype p with
           | Some b =>
               if decide (key = "activated") then Some VTrue
               else if decide (key = "deviceId") then Some (VString (bound_deviceId b))
               else if decide (key = "activationDate") then Some (VDate (bound_activationDate b))
               else None
           | None => None
           end
  end.

Definition truthy_value (v : option value) : option value :=
  match v with
  | Some (VString s) => if decide (s = EmptyString) then None else v
  | _ => v
  end.

(** [v.activated], as its truthiness. A record has the property itself;
    every other value finds it along its prototype chain. *)
Definition get_activated (p : process) (v : value) : bool :=
  match v with
  | VRecord r => activated r
  | VMethod name =>
      match builtins p !! name with
      | Some _ => true
      | None => bool_decide (is_Some (object_prototype p))
      end
  | VObjectPrototype | VTrue | VString _ | VDate _ =>
      bool_decide (is_Some (object_prototype p))
  end.

(** [v.deviceId]; [None] is [undefined]. *)
Definition get_deviceId (p : process) (v : value) : option string :=
  let inherited := bound_deviceId <$> object_prototype p in
  match v with
  | VRecord r =>
      match deviceId r with
      | Some d => Some d
      | None => inherited
      end
  | VMethod name =>
      match builtins p !! name with
      | Some b => Some (bound_deviceId b)
      | None => inherited
      end
  | VObjectPrototype | VTrue | VString _ | VDate _ => inherited
  end.

(** [licenses[key].activated = true; licenses[key].deviceId = d;
    licenses[key].activationDate = now]: on the object read from the file
    for a record, on the process for the other objects; an assignment to a
    property of a primitive is dropped. *)
Definition assign (key d : string) (now : timestamp) (v : value)
    (licenses : gmap string license) (p : process)
    : gmap string license * process :=
  match v with
  | VRecord r => (<[key := bind d now r]> licenses, p)
  | VObjectPrototype =>
      (licenses, Process (license_file p) (Some (Binding d now)) (builtins p))
  | VMethod name =>
      (licenses,
       Process (license_file p) (object_prototype p)
               (<[name := Binding d now]> (builtins p)))
  | VTrue | VString _ | VDate _ => (licenses, p)
  end.

(** [const { licenseKey, deviceId } = req.body]: the body is a plain
    object too, so a field it lacks is read from [Object.prototype], which
    can have a [deviceId] and never has a [licenseKey]. *)
Definition read_licenseKey (p : process) (req : body) : field :=
  body_licenseKey req.

Definition read_deviceId (p : process) (req : body) : field :=
  match body_deviceId req with
  | Absent =>
      match object_prototype p with
      | Some b => Str (bound_deviceId b)
      | None => Absent
      end
  | f => f
  end.

(** [GET /api/generate-test-license] *)
Definition issue (e : entropy) (now : timestamp) (write_ok : bool)
    (p : process) : response * process :=
  let licenseKey := generateLicenseKey "TEST" e in
  let licenses := <[licenseKey := pending now]> (getLicenses p) in
  let '(saved, p') := saveLicenses write_ok licenses p in
  if saved
  then (Response 201 (LicenseKey licenseKey), p')
  else (Response 500 (Error "Failed to generate license"
                            (Some "Failed to save license data")), p').

(** [POST /api/activate-license] *)
Definition activate (now : timestamp) (write_ok : bool) (req : body)
    (p : process) : response * process :=
  match truthy (read_licenseKey p req), truthy (read_deviceId p req) with
  | Some licenseKey, Some deviceId =>
      let licenses := getLicenses p in
      match truthy_value (index p licenses licenseKey) with
      | None => (not_found, p)
      | Some v =>
          if get_activated p v then
            if decide (get_deviceId p v = Some deviceId)
            then (already_activated, p)
            else (other_device, p)
          else
            let '(licenses', p') := assign licenseKey deviceId now v licenses p in
            let '(saved, p'') := saveLicenses write_ok licenses' p' in
            if saved
            then (now_activated, p'')
            else (Response 500 (Error "Failed to activate license"
                                      (Some "Failed to save activation data")), p'')
      end
  | _, _ => (bad_request, p)
  end.

(** [POST /api/verify-license] *)
Definition verify (req : body) (p : process) : response * process :=
  match truthy (read_licenseKey p req), truthy (read_deviceId p req) with
  | Some licenseKey, Some deviceId =>
      let licenses := getLicenses p in
      match truthy_value (index p licenses licenseKey) with
      | None => (not_found, p)
      | Some v =>
          if negb (get_activated p v) then (not_activated, p)
          else if decide (get_deviceId p v = Some deviceId)
          then (valid, p)
          else (device_mismatch, p)
      end
  | _, _ => (bad_request, p)
  end.

(** [GET /api/admin/licenses] *)
Definition admin (p : process) : response * process :=
  (Response 200 (Listing (getLicenses p)), p).

(** The requests, each with what its handler takes from the environment. *)
Inductive request :=
| Issue (e : entropy) (now : timestamp) (write_ok : bool)
| Activate (now : timestamp) (write_ok : bool) (req : body)
| Verify (req : body)
| Admin.

Definition handle (r : request) (p : process) : response * process :=
  match r with
  | Issue e now write_ok => issue e now write_ok p
  | Activate now write_ok req => activate now write_ok req p
  | Verify req => verify req p
  | Admin => admin p
  end.

Definition run (rs : list request) (p : process) : process :=
  fold_left (λ p r, (handle r p).2) rs p.

(** A fresh installation: the start-up code writes [{}] to the file. *)
Definition initial : process := Process (Json ∅) None ∅.

Definition reachable (p : process) : Prop := ∃ rs, p = run rs initial.

(** The request is an issuance whose generator returns [k]. *)
Definition issues (k : string) (r : request) : Prop :=
  match r with
  | Issue e _ _ => generateLicenseKey "TEST" e = k
  | _ => False
  end.

(** The process after the file has become unreadable or garbled. *)
Definition damaged (f : file) (p : process) : process :=
  Process f (object_prototype p) (builtins p).

End FileBacked.

(* ===================================================================== *)
(** ** Document-store variant ([server.js])                              *)
(* ===================================================================== *)

Module DocStore.
Import Model KeyGen.

(** A call to the store either goes through or rejects with the driver's
    error; [Some message] is the rejection. *)
Definition store_call := option string.

(** The [licenses] collection has one document per license key: the schema
    declares [licenseKey] unique, so the collection is a map from the key
    ([gmap string license]) and an insert under a key that is there is
    refused with the duplicate-key error, code 11000. *)
Inductive saved :=
| Inserted (c : gmap string license)
| DuplicateKey
| Rejected (message : string).

(** [new License({licenseKey, product: 'test_product'}).save()] *)
Definition insert_license (call : store_call) (licenseKey : string)
    (now : timestamp) (c : gmap string license) : saved :=
  match call with
  | Some message => Rejected message
  | None =>
      match c !! licenseKey with
      | Some _ => DuplicateKey
      | None => Inserted (<[licenseKey := pending now]> c)
      end
  end.

(** What the issuing handler takes from its environment. *)
Record issue_env := IssueEnv {
  connected : bool;              (* mongoose.connection.readyState === 1 *)
  entropy1 : entropy;            (* of the first key *)
  created1 : timestamp;          (* createdAt default of the first document *)
  save1 : store_call;
  retry_now : timestamp;         (* Date.now() in the retry prefix *)
  entropy2 : entropy;
  created2 : timestamp;
  save2 : store_call;
  duplicate_message : string }.  (* text of the driver's E11000 error *)

(** ['TEST-' + Date.now().toString(36).substring(-4)] *)
Definition retry_prefix (now : timestamp) : string :=
  "TEST-" +:+ Js.substring (-4) None (Js.toString36 (Z.to_N now)).

(** [GET /api/generate-test-license] *)
Definition issue (env : issue_env) (c : gmap string license)
    : response * gmap string license :=
  if negb (connected env) then
    (Response 200
       (TemporaryKey (generateLicenseKey "TEMP" (entropy1 env))
          "Database not connected - this license is for testing only"), c)
  else
    let licenseKey := generateLicenseKey "TEST" (entropy1 env) in
    match insert_license (save1 env) licenseKey (created1 env) c with
    | Inserted c' => (Response 201 (LicenseKey licenseKey), c')
    | DuplicateKey =>
        let newKey := generateLicenseKey (retry_prefix (retry_now env)) (entropy2 env) in
        match insert_license (save2 env) newKey (created2 env) c with
        | Inserted c' => (Response 201 (LicenseKey newKey), c')
        | DuplicateKey =>
            (Response 500 (Error "Failed to generate test license"
                                 (Some (duplicate_message env))), c)
        | Rejected message =>
            (Response 500 (Error "Failed to generate test license" (Some message)), c)
        end
    | Rejected message =>
        (Response 500 (SaveFailed "Failed to save license" message), c)
    end.

(** [POST /api/activate-license] *)
Definition activate (find save : store_call) (now : timestamp) (req : body)
    (c : gmap string license) : response * gmap string license :=
  match truthy (body_licenseKey req), truthy (body_deviceId req) with
  | Some licenseKey, Some deviceId' =>
      match find with
      | Some message =>
          (Response 500 (Error "Failed to activate license" (Some message)), c)
      | None =>
          match c !! licenseKey with
          | None => (not_found, c)
          | Some license =>
              if activated license then
                if decide (deviceId license ≠ Some deviceId')
                then (other_device, c)
                else (already_activated, c)
              else
                match save with
                | Some message =>
                    (Response 500 (Error "Failed to activate license" (Some message)), c)
                | None =>
                    (now_activated, <[licenseKey := bind deviceId' now license]> c)
                end
          end
      end
  | _, _ => (bad_request, c)
  end.

(** [POST /api/verify-license] *)
Definition verify (find : store_call) (req : body) (c : gmap string license)
    : response * gmap string license :=
  match truthy (body_licenseKey req), truthy (body_deviceId req) with
  | Some licenseKey, Some deviceId' =>
      match find with
      | Some message =>
          (Response 500 (Error "Failed to verify license" (Some message)), c)
      | None =>
          match c !! licenseKey with
          | None => (not_found, c)
          | Some license =>
              if negb (activated license) then (not_activated, c)
              else if decide (deviceId license ≠ Some deviceId')
              then (device_mismatch, c)
              else (valid, c)
          end
      end
  | _, _ => (bad_request, c)
  end.

Inductive request :=
| Issue (env : issue_env)
| Activate (find save : store_call) (now : timestamp) (req : body)
| Verify (find : store_call) (req : body).

Definition handle (r : request) (c : gmap string license)
    : response * gmap string license :=
  match r with
  | Issue env => issue env c
  | Activate find save now req => activate find save now req c
  | Verify find req => verify find req c
  end.

Definition run (rs : list request) (c : gmap string license) : gmap string license :=
  fold_left (λ c r, (handle r c).2) rs c.

Definition reachable (c : gmap string license) : Prop := ∃ rs, c = run rs ∅.

End DocStore.

(* ===================================================================== *)
(** ** Sample data for the examples                                      *)
(* ===================================================================== *)

Module Sample.
Import Model KeyGen.

(** The key of the end-to-end example of the specification. *)
Definition bytes : list byte :=
  [xaa; xbb; xcc; xdd; x11; x22; x33; x44; x55; x66; x77; x88].
Definition key : string := "TEST-AABBCCDD-11223344-55667788".

Definition other_bytes : list byte :=
  [x00; x01; x02; x03; x04; x05; x06; x07; x08; x09; x0a; x0b].

(** [key] issued at time 1 and activated by [device-1] at time 2. *)
Definition activated_record : license := bind "device-1" 2 (pending 1).

Definition file_history : list FileBacked.request :=
  [FileBacked.Issue (RandomBytes bytes) 1 true;
   FileBacked.Activate 2 true (json_body key "device-1")].

Definition issue_env (e : entropy) (now : timestamp) : DocStore.issue_env :=
  DocStore.IssueEnv true e now None now e now None "E11000 duplicate key".

Definition docstore_history : list DocStore.request :=
  [DocStore.Issue (issue_env (RandomBytes bytes) 1);
   DocStore.Activate None None 2 (json_body key "device-1")].

End Sample.

(* ===================================================================== *)
(** ** Reading keys and records back                                     *)
(* ===================================================================== *)

Module Decode.
Import Model KeyGen.

(** The value of a digit of [toString(36)]: the inverse of [Js.digit]. *)
Definition digit_value (c : ascii) : N :=
  let n := N_of_ascii c in
  if (n <? 58)%N then (n - 48)%N else (n - 87)%N.

(** The number a base-36 rendering stands for, most significant digit
    first, continuing from [acc]. *)
Fixpoint value36_from (acc : N) (s : string) : N :=
  match s with
  | EmptyString => acc
  | String c s' => value36_from (acc * 36 + digit_value c) s'
  end.

Definition value36 (s : string) : N := value36_from 0 s.

(** The byte two upper-case hexadecimal digits stand for. *)
Definition upper_hex_value (c : ascii) : N :=
  let n := N_of_ascii c in
  if (n <? 58)%N then (n - 48)%N else (n - 55)%N.

Definition byte_of_hex (hi lo : ascii) : option byte :=
  Byte.of_N (16 * upper_hex_value hi + upper_hex_value lo).

(** The generator got its twelve bytes from the entropy source. *)
Definition twelve_bytes (e : entropy) : Prop :=
  match e with
  | RandomBytes bytes => List.length bytes = 12%nat
  | CryptoFailed _ => False
  end.




End Decode.

(* ===================================================================== *)
(** ** The two awaits of the document-store activation                   *)
(* ===================================================================== *)

Module Awaits.
Import Model.

(** The activation handler of [server.js] awaits twice: [License.findOne]
    and, after its checks, [license.save()]. Other requests can be served
    between the two. [lookup] is the handler up to the second await, [save]
    is the rest: [DocStore.activate] is the two run with nothing in
    between. *)
Inductive looked_up :=
| Answered (r : response)
| Saving (licenseKey deviceId : string).

Definition lookup (find : DocStore.store_call) (req : body)
    (c : gmap string license) : looked_up :=
  match truthy (body_licenseKey req), truthy (body_deviceId req) with
  | Some licenseKey, Some deviceId' =>
      match find with
      | Some message =>
          Answered (Response 500 (Error "Failed to activate license" (Some message)))
      | None =>
          match c !! licenseKey with
          | None => Answered not_found
          | Some license =>
              if activated license then
                if decide (deviceId license ≠ Some deviceId')
                then Answered other_device
                else Answered already_activated
              else Saving licenseKey deviceId'
          end
      end
  | _, _ => Answered bad_request
  end.

(** [license.save()] of a document that was found: an update of the three
    assigned fields of the stored document with that key, whatever the
    document holds by now. No request deletes a document; an update that
    found none would be rejected (the text of that error is left out). *)
Definition save (call : DocStore.store_call) (now : timestamp)
    (licenseKey deviceId' : string) (c : gmap string license)
    : response * gmap string license :=
  match call with
  | Some message =>
      (Response 500 (Error "Failed to activate license" (Some message)), c)
  | None =>
      match c !! licenseKey with
      | Some current => (now_activated, <[licenseKey := bind deviceId' now current]> c)
      | None => (Response 500 (Error "Failed to activate license" None), c)
      end
  end.

End Awaits.

(* ===================================================================== *)
(** ** Requests with fields of any JSON type (file-backed variant)       *)
(* ===================================================================== *)

Module Wire.

(** [bodyParser.json()] hands the handlers whatever JSON the client sent:
    the two fields need not be strings. A finite number is given by its
    canonical rendering ([String(n)], which is also how [JSON.stringify]
    writes it and how it reads as a property key; two finite numbers are
    [===] exactly when their renderings are equal, and the rendering of
    zero is ["0"]); a literal beyond the range of a double, such as
    [1e999], parses to an infinity. A field that is a JSON object is left
    out: the handlers would read and assign the properties of that object
    that are named like those of a license. *)
#[local] Unset Elimination Schemes.
Inductive json :=
| JNull
| JBool (b : bool)
| JNum (rendering : string)
| JInfinity (negative : bool)
| JStr (s : string)
| JArr (items : list json).
#[local] Set Elimination Schemes.

(** Truthiness: [!v] is false. *)
Definition truthy (v : json) : bool :=
  match v with
  | JNull => false
  | JBool b => b
  | JNum rendering => negb (String.eqb rendering "0")
  | JInfinity _ => true
  | JStr s => negb (String.eqb s EmptyString)
  | JArr _ => true
  end.

(** [Array.prototype.join(',')] on renderings. *)
Fixpoint join (parts : list string) : string :=
  match parts with
  | [] => EmptyString
  | [part] => part
  | part :: rest => part +:+ "," +:+ join rest
  end.

(** [String(v)], which is how a value reads as the property key in
    [licenses[licenseKey]]; an element [null] of an array joins as the
    empty string. *)
Fixpoint to_string (v : json) : string :=
  match v with
  | JNull => "null"
  | JBool true => "true"
  | JBool false => "false"
  | JNum rendering => rendering
  | JInfinity false => "Infinity"
  | JInfinity true => "-Infinity"
  | JStr s => s
  | JArr items =>
      join (map (λ item, match item with JNull => EmptyString | _ => to_string item end)
                items)
  end.

(** What [JSON.parse] reads back after [JSON.stringify] has written the
    value: an infinity is written as [null]. *)
Fixpoint persisted (v : json) : json :=
  match v with
  | JInfinity _ => JNull
  | JArr items => JArr (map persisted items)
  | _ => v
  end.

(** [a === b] for two values that are not the same object: primitives are
    compared by value, two arrays are never equal. *)
Definition strict_equal (a b : json) : bool :=
  match a, b with
  | JNull, JNull => true
  | JBool x, JBool y => Bool.eqb x y
  | JNum x, JNum y => String.eqb x y
  | JInfinity x, JInfinity y => Bool.eqb x y
  | JStr x, JStr y => String.eqb x y
  | _, _ => false
  end.

(** A record of the file, with the device as JSON has it: [None] is no
    [deviceId] property, [Some JNull] is the property [null]. *)
Record stored := Stored {
  product : string;
  activated : bool;
  deviceId : option json;
  activationDate : option Model.timestamp;
  createdAt : Model.timestamp }.

Inductive file :=
| Unreadable
| Malformed
| Json (licenses : gmap string stored).

(** The three properties on an object of the process, with the device as
    the request that assigned it had it. *)
Record binding := Binding {
  bound_deviceId : json;
  bound_activationDate : Model.timestamp }.

Record process := Process {
  license_file : file;
  object_prototype : option binding;
  builtins : gmap string binding }.

(** The body: [None] is a field that is not there. *)
Record body := Body {
  body_licenseKey : option json;
  body_deviceId : option json }.

Inductive value :=
| VRecord (r : stored)
| VObjectPrototype
| VMethod (name : string)
| VTrue
| VDevice (v : json)
| VDate (t : Model.timestamp).

Definition getLicenses (p : process) : gmap string stored :=
  match license_file p with
  | Json licenses => licenses
  | Unreadable | Malformed => ∅
  end.

Definition saveLicenses (write_ok : bool) (licenses : gmap string stored)
    (p : process) : bool * process :=
  if write_ok
  then (true, Process (Json licenses) (object_prototype p) (builtins p))
  else (false, p).

(** [licenses[key]] *)
Definition index (p : process) (licenses : gmap string stored) (key : string)
    : option value :=
  match licenses !! key with
  | Some r => Some (VRecord r)
  | None =>
      if decide (key = "__proto__") then Some VObjectPrototype
      else if decide (key ∈ FileBacked.methods) then Some (VMethod key)
      else match object_prototype p with
           | Some b =>
               if decide (key = "activated") then Some VTrue
               else if decide (key = "deviceId") then Some (VDevice (bound_deviceId b))
               else if decide (key = "activationDate") then Some (VDate (bound_activationDate b))
               else None
           | None => None
           end
  end.

Definition truthy_value (v : option value) : option value :=
  match v with
  | Some (VDevice d) => if truthy d then v else None
  | _ => v
  end.

(** [v.activated], as its truthiness. *)
Definition get_activated (p : process) (v : value) : bool :=
  match v with
  | VRecord r => activated r
  | VMethod name =>
      match builtins p !! name with
      | Some _ => true
      | None => bool_decide (is_Some (object_prototype p))
      end
  | VObjectPrototype | VTrue | VDevice _ | VDate _ =>
      bool_decide (is_Some (object_prototype p))
  end.

(** [v.deviceId]: nothing, a value of its own (read from the file, or
    assigned to a method by an earlier request), or the value that
    [Object.prototype] carries. *)
Inductive device_read :=
| Undefined
| Own (d : json)
| OfPrototype (d : json).

Definition get_deviceId (p : process) (v : value) : device_read :=
  let inherited :=
    match object_prototype p with
    | Some b => OfPrototype (bound_deviceId b)
    | None => Undefined
    end in
  match v with
  | VRecord r =>
      match deviceId r with
      | Some d => Own d
      | None => inherited
      end
  | VMethod name =>
      match builtins p !! name with
      | Some b => Own (bound_deviceId b)
      | None => inherited
      end
  | VObjectPrototype | VTrue | VDevice _ | VDate _ => inherited
  end.

(** [const { licenseKey, deviceId } = req.body]: a field the body lacks is
    read from [Object.prototype]; [true] marks a device read from there. *)
Definition read_deviceId (p : process) (req : body) : option (json * bool) :=
  match body_deviceId req with
  | Some d => Some (d, false)
  | None =>
      match object_prototype p with
      | Some b => Some (bound_deviceId b, true)
      | None => None
      end
  end.

(** [v.deviceId === deviceId]: the device of the request is the very value
    on [Object.prototype] when both were read from there; every other pair
    is two values. *)
Definition same_device (read : device_read) (d : json) (inherited : bool) : bool :=
  match read with
  | Undefined => false
  | Own d' => strict_equal d' d
  | OfPrototype d' => if inherited then true else strict_equal d' d
  end.

(** The three assignments of the activation. A record takes the device as
    the file will hold it once [saveLicenses] has written it. *)
Definition assign (key : string) (d : json) (now : Model.timestamp) (v : value)
    (licenses : gmap string stored) (p : process)
    : gmap string stored * process :=
  match v with
  | VRecord r =>
      (<[key := Stored (product r) true (Some (persisted d)) (Some now) (createdAt r)]>
         licenses, p)
  | VObjectPrototype =>
      (licenses, Process (license_file p) (Some (Binding d now)) (builtins p))
  | VMethod name =>
      (licenses,
       Process (license_file p) (object_prototype p)
               (<[name := Binding d now]> (builtins p)))
  | VTrue | VDevice _ | VDate _ => (licenses, p)
  end.

(** The fields of the request when both are truthy: the property key the
    license key reads as, the device, and whether it was inherited. *)
Definition validated (p : process) (req : body) : option (string * json * bool) :=
  match body_licenseKey req, read_deviceId p req with
  | Some k, Some (d, inherited) =>
      if truthy k && truthy d then Some (to_string k, d, inherited) else None
  | _, _ => None
  end.

(** [POST /api/activate-license] *)
Definition activate (now : Model.timestamp) (write_ok : bool) (req : body)
    (p : process) : Model.response * process :=
  match validated p req with
  | Some (licenseKey, deviceId', inherited) =>
      let licenses := getLicenses p in
      match truthy_value (index p licenses licenseKey) with
      | None => (Model.not_found, p)
      | Some v =>
          if get_activated p v then
            if same_device (get_deviceId p v) deviceId' inherited
            then (Model.already_activated, p)
            else (Model.other_device, p)
          else
            let '(licenses', p') := assign licenseKey deviceId' now v licenses p in
            let '(saved, p'') := saveLicenses write_ok licenses' p' in
            if saved
            then (Model.now_activated, p'')
            else (Model.Response 500
                    (Model.Error "Failed to activate license"
                                 (Some "Failed to save activation data")), p'')
      end
  | None => (Model.bad_request, p)
  end.

(** [POST /api/verify-license] *)
Definition verify (req : body) (p : process) : Model.response * process :=
  match validated p req with
  | Some (licenseKey, deviceId', inherited) =>
      let licenses := getLicenses p in
      match truthy_value (index p licenses licenseKey) with
      | None => (Model.not_found, p)
      | Some v =>
          if negb (get_activated p v) then (Model.not_activated, p)
          else if same_device (get_deviceId p v) deviceId' inherited
          then (Model.valid, p)
          else (Model.device_mismatch, p)
      end
  | None => (Model.bad_request, p)
  end.

(** The string model inside this one. *)
Definition of_field (f : Model.field) : option json :=
  match f with
  | Model.Absent => None
  | Model.Null => Some JNull
  | Model.Str s => Some (JStr s)
  end.

Definition of_body (req : Model.body) : body :=
  Body (of_field (Model.body_licenseKey req)) (of_field (Model.body_deviceId req)).

Definition of_license (l : Model.license) : stored :=
  Stored (Model.product l) (Model.activated l) (JStr <$> Model.deviceId l)
         (Model.activationDate l) (Model.createdAt l).

Definition of_binding (b : FileBacked.binding) : binding :=
  Binding (JStr (FileBacked.bound_deviceId b)) (FileBacked.bound_activationDate b).

Definition of_file (f : FileBacked.file) : file :=
  match f with
  | FileBacked.Unreadable => Unreadable
  | FileBacked.Malformed => Malformed
  | FileBacked.Json licenses => Json (of_license <$> licenses)
  end.

Definition of_process (p : FileBacked.process) : process :=
  Process (of_file (FileBacked.license_file p))
          (of_binding <$> FileBacked.object_prototype p)
          (of_binding <$> FileBacked.builtins p).

Definition of_value (v : FileBacked.value) : value :=
  match v with
  | FileBacked.VRecord r => VRecord (of_license r)
  | FileBacked.VObjectPrototype => VObjectPrototype
  | FileBacked.VMethod name => VMethod name
  | FileBacked.VTrue => VTrue
  | FileBacked.VString s => VDevice (JStr s)
  | FileBacked.VDate t => VDate t
  end.

End Wire.

(* ===================================================================== *)
(** * Properties of the key generator                                    *)
(* ===================================================================== *)

Section KeyGenFacts.
Import KeyGen.

Lemma length_append (s t : string) :
  String.length (s +:+ t) = (String.length s + String.length t)%nat.
Proof. induction s as [|c s IH]; simpl; [done | by rewrite IH]. Qed.

Lemma append_inv_head (s t u : string) : s +:+ t = s +:+ u → t = u.
Proof. induction s as [|c s IH]; simpl; [done | intros [= H]; auto]. Qed.

Lemma length_toUpperCase (s : string) :
  String.length (Js.toUpperCase s) = String.length s.
Proof. induction s as [|c s IH]; simpl; [done | by rewrite IH]. Qed.

Lemma length_substring (n m : nat) (s : string) :
  (String.length (String.substring n m s) <= m)%nat.
Proof.
  revert n m. induction s as [|c s IH]; intros [|n] [|m]; simpl; try lia.
  - specialize (IH 0%nat m). lia.
  - apply (IH n 0%nat).
  - apply (IH n (S m)).
Qed.

Lemma substring_nothing (s : string) : String.substring 0 0 s = EmptyString.
Proof. by destruct s. Qed.

(** Two hex digits of a byte, upper-cased, are in [0-9A-F]. *)
Lemma byte_upper_hex (b : byte) (s : string) :
  all_upper_hex (Js.toUpperCase (Js.hex_of_byte b +:+ s))
  = all_upper_hex (Js.toUpperCase s).
Proof. destruct b; reflexivity. Qed.

Lemma four_bytes_segment (b1 b2 b3 b4 : byte) :
  segment (Js.toUpperCase (Js.hex [b1; b2; b3; b4])).
Proof.
  split; [reflexivity |].
  cbn [Js.hex]. by rewrite !byte_upper_hex.
Qed.

(** The three sections are the first three groups of four bytes. *)
Lemma sections_of_bytes (prefix : string) (bytes : list byte) :
  (12 <= List.length bytes)%nat →
  key_format prefix
    (let randomHex := Js.toUpperCase (Js.hex bytes) in
     prefix +:+ "-" +:+ Js.substr 0 8 randomHex +:+ "-" +:+
     Js.substr 8 8 randomHex +:+ "-" +:+ Js.substr 16 8 randomHex).
Proof.
  intros Hlen.
  destruct bytes as [|a1 [|a2 [|a3 [|a4 [|b1 [|b2 [|b3 [|b4 [|c1 [|c2 [|c3 [|c4 rest]]]]]]]]]]]];
    simpl in Hlen; try lia.
  exists (Js.toUpperCase (Js.hex [a1; a2; a3; a4])),
         (Js.toUpperCase (Js.hex [b1; b2; b3; b4])),
         (Js.toUpperCase (Js.hex [c1; c2; c3; c4])).
  split; [apply four_bytes_segment |].
  split; [apply four_bytes_segment |].
  split; [apply four_bytes_segment | ].
  cbv zeta. unfold Js.substr, Js.hex_of_byte. simpl.
  by rewrite substring_nothing.
Qed.

Lemma key_format_length (prefix key : string) :
  key_format prefix key → String.length key = (String.length prefix + 27)%nat.
Proof.
  intros (s1 & s2 & s3 & [H1 _] & [H2 _] & [H3 _] & ->).
  rewrite !length_append, H1, H2, H3. simpl. lia.
Qed.

Lemma fallback_length (prefix random36 : string) :
  (String.length (generateLicenseKey prefix (CryptoFailed random36))
   <= String.length prefix + 9)%nat.
Proof.
  unfold generateLicenseKey, Js.substring.
  rewrite !length_append, length_toUpperCase. simpl.
  match goal with |- context [String.substring ?n ?m _] =>
    pose proof (length_substring n m random36) as H;
    assert (m <= 8)%nat by (unfold Js.clamp; lia)
  end.
  lia.
Qed.

(** A key of either path starts with its prefix and a hyphen. *)
Lemma generated_key_prefix (prefix : string) (e : entropy) :
  ∃ rest, generateLicenseKey prefix e = prefix +:+ "-" +:+ rest.
Proof. destruct e; simpl; eauto. Qed.

End KeyGenFacts.

Example spec_example_key :
  KeyGen.generateLicenseKey "TEST"
    (KeyGen.RandomBytes [xaa; xbb; xcc; xdd; x11; x22; x33; x44; x55; x66; x77; x88])
  = "TEST-AABBCCDD-11223344-55667788".
Proof. reflexivity. Qed.

Example fallback_example_key :
  KeyGen.generateLicenseKey "TEST" (KeyGen.CryptoFailed "0.4fzyo82mvyr") = "TEST-4FZYO82M".
Proof. reflexivity. Qed.

Lemma secure_key_format (productCode : string) (randomBytes : list byte) :
  (12 <= List.length randomBytes)%nat →
  KeyGen.key_format productCode (KeyGen.generateSecureLicenseKey productCode randomBytes).
Proof. apply sections_of_bytes. Qed.

(** C6 (as amended). A key generated from the bytes of the entropy source
    is the prefix followed by three hyphen-separated segments of exactly
    eight upper-case hexadecimal characters. The fallback key on
    entropy-source failure is the prefix, a hyphen and a single segment of
    at most eight characters, and is not of that format. *)
Theorem generated_key_shape (prefix : string) (e : KeyGen.entropy) :
  KeyGen.sized e →
  match e with
  | KeyGen.RandomBytes _ =>
      KeyGen.key_format prefix (KeyGen.generateLicenseKey prefix e)
  | KeyGen.CryptoFailed random36 =>
      ∃ s, KeyGen.generateLicenseKey prefix e = prefix +:+ "-" +:+ s
           ∧ s = Js.toUpperCase (Js.substring 2 (Some 10) random36)
           ∧ (String.length s <= 8)%nat
           ∧ ¬ KeyGen.key_format prefix (KeyGen.generateLicenseKey prefix e)
  end.
Proof.
  destruct e as [bytes | random36]; intros Hsized.
  - by apply sections_of_bytes.
  - eexists. split; [reflexivity |]. split; [reflexivity |].
    pose proof (fallback_length prefix random36) as Hlen. split.
    + unfold KeyGen.generateLicenseKey in Hlen.
      rewrite !length_append in Hlen. simpl in Hlen. lia.
    + intros Hfmt%key_format_length. lia.
Qed.

Lemma generated_key_shape_witness :
  KeyGen.key_format "TEST"
    (KeyGen.generateLicenseKey "TEST"
       (KeyGen.RandomBytes [x00; x01; x02; x03; x04; x05; x06; x07; x08; x09; x0a; x0b])).
Proof.
  apply (generated_key_shape "TEST"
           (KeyGen.RandomBytes [x00; x01; x02; x03; x04; x05; x06; x07; x08; x09; x0a; x0b])).
  simpl. lia.
Defined.

(** C6 (as stated) fails: the key of the pseudo-random fallback does not
    match [PREFIX-[0-9A-F]{8}-[0-9A-F]{8}-[0-9A-F]{8}]. *)
Lemma fallback_key_not_in_format :
  ¬ KeyGen.key_format "TEST"
      (KeyGen.generateLicenseKey "TEST" (KeyGen.CryptoFailed "0.4fzyo82mvyr")).
Proof. intros H%key_format_length. simpl in H. lia. Qed.

(* ===================================================================== *)
(** * Properties of the file-backed variant                              *)
(* ===================================================================== *)

Section FileBackedFacts.
Import Model KeyGen FileBacked.

Lemma truthy_Str (s : string) : s ≠ EmptyString → truthy (Str s) = Some s.
Proof. intros Hs. simpl. by destruct (decide (s = EmptyString)). Qed.



(** What a save leaves in the file. *)
Lemma getLicenses_saved w licenses p :
  getLicenses (saveLicenses w licenses p).2 = if w then licenses else getLicenses p.
Proof. by destruct w. Qed.



(** Verification and the listing leave the process as it is. *)
Lemma verify_pure req (p : process) : (verify req p).2 = p.
Proof.
  unfold verify.
  repeat (match goal with |- context [match ?x with _ => _ end] => destruct x end;
          try done).
Qed.

Lemma activate_store_step now w req (p : process) issued :
  store_step issued (getLicenses p) (getLicenses (activate now w req p).2).
Proof.
  unfold activate.
  destruct (truthy (read_licenseKey p req)) as [k|]; [| by apply step_same].
  destruct (truthy (read_deviceId p req)) as [d|]; [| by apply step_same].
  unfold index. destruct (getLicenses p !! k) as [r|] eqn:Hr.
  - cbn [truthy_value get_activated assign].
    destruct (activated r) eqn:Ha.
    + destruct (decide _); by apply step_same.
    + destruct w; cbn; [by eapply step_bind | by apply step_same].
  - repeat (match goal with
            | |- context [decide ?P] => destruct (decide P)
            | |- context [object_prototype p] => destruct (object_prototype p)
            | |- context [builtins p !! ?n] => destruct (builtins p !! n)
            | |- context [bool_decide ?P] => destruct (bool_decide P)
            | |- context [saveLicenses ?w _ _] => destruct w
            end; cbn); by apply step_same.
Qed.

Lemma handle_store_step (r : request) (p : process) :
  store_step (λ k, issues k r) (getLicenses p) (getLicenses (handle r p).2).
Proof.
  destruct r as [e now w | now w req | req |]; cbn [handle].
  - unfold issue. destruct w; cbn; [by eapply step_put | by apply step_same].
  - apply activate_store_step.
  - rewrite verify_pure. by apply step_same.
  - by apply step_same.
Qed.

End FileBackedFacts.

(* ===================================================================== *)
(** * Properties of the document-store variant                           *)
(* ===================================================================== *)

Section DocStoreFacts.
Import Model KeyGen DocStore.






End DocStoreFacts.

(* ===================================================================== *)
(** * Consequences of the three kinds of step                            *)
(* ===================================================================== *)

Section Steps.
Import Model.






End Steps.

(* ===================================================================== *)
(** * The lifecycle on sequences of requests                             *)
(* ===================================================================== *)

Section Runs.
Import Model.

Lemma file_run_cons r rs p :
  FileBacked.run (r :: rs) p = FileBacked.run rs (FileBacked.handle r p).2.
Proof. reflexivity. Qed.




End Runs.




Example file_history_store :
  FileBacked.getLicenses (FileBacked.run Sample.file_history FileBacked.initial)
  = {[Sample.key := Sample.activated_record]}.
Proof. vm_compute. reflexivity. Qed.

Example docstore_history_store :
  DocStore.run Sample.docstore_history ∅ = {[Sample.key := Sample.activated_record]}.
Proof. vm_compute. reflexivity. Qed.





Example activate_other_device_conflict :
  let c := DocStore.run Sample.docstore_history ∅ in
  DocStore.activate None None 5 (Model.json_body Sample.key "device-2") c
  = (Model.other_device, c).
Proof. vm_compute. reflexivity. Qed.

(* ===================================================================== *)
(** * Keys that no record answers for                                    *)
(* ===================================================================== *)

Section UnknownKeys.
Import Model KeyGen.



(** File: a key that neither a record nor [Object.prototype] answers for
    is refused with 404 by both handlers. *)
Lemma file_activate_unknown now w k d (p : FileBacked.process) :
  k ≠ EmptyString → d ≠ EmptyString →
  FileBacked.truthy_value (FileBacked.index p (FileBacked.getLicenses p) k) = None →
  FileBacked.activate now w (Body (Str k) (Str d)) p = (not_found, p).
Proof.
  intros Hk Hd Hi. unfold FileBacked.activate, FileBacked.read_licenseKey,
    FileBacked.read_deviceId. cbn [body_licenseKey body_deviceId].
  rewrite !truthy_Str by done. by rewrite Hi.
Qed.

Lemma file_verify_unknown k d (p : FileBacked.process) :
  k ≠ EmptyString → d ≠ EmptyString →
  FileBacked.truthy_value (FileBacked.index p (FileBacked.getLicenses p) k) = None →
  FileBacked.verify (Body (Str k) (Str d)) p = (not_found, p).
Proof.
  intros Hk Hd Hi. unfold FileBacked.verify, FileBacked.read_licenseKey,
    FileBacked.read_deviceId. cbn [body_licenseKey body_deviceId].
  rewrite !truthy_Str by done. by rewrite Hi.
Qed.

(** A key that starts with [TEST-] is not a name that [Object.prototype]
    answers for. *)
Lemma test_key_not_inherited (p : FileBacked.process) (rest : string) :
  FileBacked.truthy_value (FileBacked.index p ∅ ("TEST" +:+ "-" +:+ rest)) = None.
Proof.
  unfold FileBacked.index. rewrite lookup_empty.
  destruct (decide _) as [H | _]; [discriminate H |].
  destruct (decide _) as [H | _].
  { unfold FileBacked.methods in H.
    repeat (apply elem_of_cons in H as [H | H]; [discriminate H |]).
    by apply elem_of_nil in H. }
  destruct (FileBacked.object_prototype p); [| done].
  repeat (destruct (decide _) as [H | _]; [discriminate H |]). done.
Qed.

End UnknownKeys.

(** C1 (code defect, file-backed variant). With no record in the file, the
    activation of the key [constructor] is not refused with 404: the lookup
    [licenses[licenseKey]] finds the method that every object inherits, the
    handler answers 200 "activated" and leaves the three properties on that
    method. *)
Theorem activate_inherited_name (now : Model.timestamp) :
  FileBacked.getLicenses FileBacked.initial !! "constructor" = None
  ∧ FileBacked.activate now true (Model.json_body "constructor" "device-1") FileBacked.initial
    = (Model.now_activated,
       FileBacked.Process (FileBacked.Json ∅) None
         {["constructor" := FileBacked.Binding "device-1" now]}).
Proof. split; reflexivity. Qed.

(** C2 (code defect, file-backed variant). With no record in the file, the
    verification of the key [constructor] is not refused with 404 but with
    403 "not activated". *)
Theorem verify_inherited_name :
  FileBacked.getLicenses FileBacked.initial !! "constructor" = None
  ∧ FileBacked.verify (Model.json_body "constructor" "device-1") FileBacked.initial
    = (Model.not_activated, FileBacked.initial).
Proof. split; reflexivity. Qed.

(* ===================================================================== *)
(** * Validation of the request                                          *)
(* ===================================================================== *)

Section Validation.
Import Model.





Lemma file_accepts_complete req now w (p : FileBacked.process) :
  is_Some (truthy (body_licenseKey req)) → is_Some (truthy (body_deviceId req)) →
  code (FileBacked.activate now w req p).1 ≠ 400
  ∧ code (FileBacked.verify req p).1 ≠ 400.
Proof.
  unfold FileBacked.activate, FileBacked.verify, FileBacked.read_licenseKey,
    FileBacked.read_deviceId.
  intros [k ->] [d Hd].
  assert (truthy (match body_deviceId req with
                  | Absent => match FileBacked.object_prototype p with
                              | Some b => Str (FileBacked.bound_deviceId b)
                              | None => Absent
                              end
                  | f => f end) = Some d) as ->
    by by destruct (body_deviceId req).
  split;
    repeat (match goal with
            | |- context [let '(_, _) := ?x in _] => destruct x
            | |- context [match ?x with _ => _ end] => destruct x
            end; try done).
Qed.

End Validation.

(** C8 (code defect, file-backed variant). Once a request has activated the
    key [__proto__], which is [Object.prototype] itself, every object of the
    process inherits its [deviceId], the body of a request too: a request
    with no [deviceId] is then not refused with 400. Here it activates the
    issued license for the inherited device, and the verification with no
    [deviceId] answers "valid". *)
Theorem missing_device_is_inherited :
  let p := FileBacked.run
             [FileBacked.Issue (KeyGen.RandomBytes Sample.bytes) 1 true;
              FileBacked.Activate 2 true (Model.json_body "__proto__" "device-1")]
             FileBacked.initial in
  let no_device := Model.Body (Model.Str Sample.key) Model.Absent in
  let result := FileBacked.activate 3 true no_device p in
  result.1 = Model.now_activated
  ∧ FileBacked.getLicenses result.2
    = {[Sample.key := Model.bind "device-1" 3 (Model.pending 1)]}
  ∧ (FileBacked.verify no_device result.2).1 = Model.valid.
Proof. vm_compute. auto. Qed.

(* ===================================================================== *)
(** * Issuance                                                           *)
(* ===================================================================== *)

Section Issuance.
Import Model KeyGen.

Lemma insert_license_keeps call key now (c c' : gmap string license) k l :
  DocStore.insert_license call key now c = DocStore.Inserted c' →
  c !! k = Some l → c' !! k = Some l ∧ k ≠ key.
Proof.
  unfold DocStore.insert_license. destruct call; [done |].
  destruct (c !! key) eqn:Hkey; [done |]. intros [= <-] Hk.
  assert (k ≠ key) by congruence. by rewrite lookup_insert_ne.
Qed.

(** Document store: whatever the environment does, issuance leaves every
    record of the collection as it is. *)
Lemma docstore_issue_keeps env (c : gmap string license) k l :
  c !! k = Some l → (DocStore.issue env c).2 !! k = Some l.
Proof.
  intros Hk. unfold DocStore.issue.
  destruct (negb (DocStore.connected env)); [done |].
  destruct (DocStore.insert_license (DocStore.save1 env) _ _ c) eqn:H1.
  - by apply (insert_license_keeps _ _ _ _ _ _ _ H1).
  - destruct (DocStore.insert_license (DocStore.save2 env) _ _ c) eqn:H2; [| done..].
    by apply (insert_license_keeps _ _ _ _ _ _ _ H2).
  - done.
Qed.

End Issuance.

(** C7 (as amended). In the document-store variant, when the store refuses
    the first key as a duplicate, issuance generates one more key, with the
    prefix [TEST-] followed by the time in base 36. When that key has no
    record either and the store takes the write, a new pending record is
    persisted under it and the key is returned with 201; when it is taken
    too, nothing is persisted and the answer is 500. In both cases every
    record the collection had is left as it was. *)
Theorem issue_retries_once (env : DocStore.issue_env) (c : gmap string Model.license) :
  let key1 := KeyGen.generateLicenseKey "TEST" (DocStore.entropy1 env) in
  let key2 := KeyGen.generateLicenseKey (DocStore.retry_prefix (DocStore.retry_now env))
                (DocStore.entropy2 env) in
  DocStore.connected env = true →
  DocStore.save1 env = None → DocStore.save2 env = None →
  is_Some (c !! key1) →
  (c !! key2 = None →
     DocStore.issue env c
     = (Model.Response 201 (Model.LicenseKey key2),
        <[key2 := Model.pending (DocStore.created2 env)]> c)
     ∧ ∀ k, is_Some (c !! k) → key2 ≠ k)
  ∧ (is_Some (c !! key2) →
     Model.code (DocStore.issue env c).1 = 500 ∧ (DocStore.issue env c).2 = c)
  ∧ (∀ k l, c !! k = Some l → (DocStore.issue env c).2 !! k = Some l).
Proof.
  intros key1 key2 Hconn Hs1 Hs2 [l1 H1].
  unfold DocStore.issue, DocStore.insert_license.
  rewrite Hconn, Hs1, Hs2. cbn [negb]. fold key1 key2. rewrite H1.
  split; [| split].
  - intros H2. rewrite H2. split; [done |].
    intros k [l Hk] <-. congruence.
  - intros [l2 H2]. by rewrite H2.
  - intros k l Hk. destruct (c !! key2) eqn:H2; [done |].
    cbn. rewrite lookup_insert_ne; [done | congruence].
Qed.

Lemma issue_retries_once_witness :
  let c := DocStore.run Sample.docstore_history ∅ in
  let env := DocStore.IssueEnv true (KeyGen.RandomBytes Sample.bytes) 3 None
               1730592000000 (KeyGen.RandomBytes Sample.other_bytes) 3 None EmptyString in
  DocStore.issue env c
  = (Model.Response 201
       (Model.LicenseKey "TEST-m30tslc0-00010203-04050607-08090A0B"),
     <["TEST-m30tslc0-00010203-04050607-08090A0B" := Model.pending 3]> c).
Proof.
  intros c env.
  apply (issue_retries_once env c eq_refl eq_refl eq_refl).
  - vm_compute. eauto.
  - vm_compute. reflexivity.
Defined.

(** C7 (as stated) fails. File-backed variant: an issuance whose generator
    returns a stored key makes no other attempt and replaces the record, here
    an activated one, by a pending one. Document-store variant: when the key
    of the one retry is taken as well, no record is persisted. *)
Lemma issue_conflict_not_resolved :
  (let p := FileBacked.run Sample.file_history FileBacked.initial in
   let result := FileBacked.issue (KeyGen.RandomBytes Sample.bytes) 3 true p in
   FileBacked.getLicenses p !! Sample.key = Some Sample.activated_record
   ∧ result.1 = Model.Response 201 (Model.LicenseKey Sample.key)
   ∧ FileBacked.getLicenses result.2 !! Sample.key = Some (Model.pending 3))
  ∧ (let env := Sample.issue_env (KeyGen.RandomBytes Sample.bytes) 0 in
     let c := DocStore.run [DocStore.Issue env; DocStore.Issue env] ∅ in
     Model.code (DocStore.issue env c).1 = 500 ∧ (DocStore.issue env c).2 = c).
Proof. vm_compute. auto 10. Qed.

(* ===================================================================== *)
(** * A license file that cannot be read                                 *)
(* ===================================================================== *)

Section Damaged.
Import Model KeyGen.

(** Every key of a reachable file was generated by an issuance. *)
Lemma store_step_keys issued (Q : string → Prop) (m m' : gmap string license) :
  (∀ k, issued k → Q k) →
  (∀ k, is_Some (m !! k) → Q k) →
  store_step issued m m' →
  ∀ k, is_Some (m' !! k) → Q k.
Proof.
  intros HQ Hm [-> | k' d now r Hr _ -> | k' now Hi ->] k; [apply Hm | |].
  - destruct (decide (k' = k)) as [-> | Hne]; [intros _; apply Hm; eauto |].
    rewrite lookup_insert_ne by done. apply Hm.
  - destruct (decide (k' = k)) as [-> | Hne]; [intros _; by apply HQ |].
    rewrite lookup_insert_ne by done. apply Hm.
Qed.

Lemma file_keys_generated (p : FileBacked.process) :
  FileBacked.reachable p →
  ∀ k, is_Some (FileBacked.getLicenses p !! k) →
       ∃ rest, k = "TEST" +:+ "-" +:+ rest.
Proof.
  intros [rs ->].
  assert (∀ p, (∀ k, is_Some (FileBacked.getLicenses p !! k) →
                     ∃ rest, k = "TEST" +:+ "-" +:+ rest) →
               ∀ k, is_Some (FileBacked.getLicenses (FileBacked.run rs p) !! k) →
                    ∃ rest, k = "TEST" +:+ "-" +:+ rest) as Hrun.
  { induction rs as [|r rs IH]; intros p Hp; [done |].
    rewrite file_run_cons. apply IH.
    eapply store_step_keys; [| exact Hp | apply handle_store_step].
    intros k Hk. destruct r as [e ? ? | | |]; try done.
    cbn in Hk. subst k. apply generated_key_prefix. }
  apply Hrun. intros k [l Hl]. cbn in Hl. by rewrite lookup_empty in Hl.
Qed.

Lemma getLicenses_damaged f (p : FileBacked.process) :
  f = FileBacked.Unreadable ∨ f = FileBacked.Malformed →
  FileBacked.getLicenses (FileBacked.damaged f p) = ∅.
Proof. by intros [-> | ->]. Qed.

End Damaged.

(** C9 (as amended). The listing always answers 200 with what [getLicenses]
    returns: the full mapping of the persisted records when the file can be
    read and parsed, the empty mapping when it cannot. It does not answer
    500 when reading the store fails. *)
Theorem admin_lists_what_is_read (p : FileBacked.process) :
  FileBacked.admin p
  = (Model.Response 200 (Model.Listing (FileBacked.getLicenses p)), p)
  ∧ (∀ licenses, FileBacked.license_file p = FileBacked.Json licenses →
       FileBacked.getLicenses p = licenses)
  ∧ (FileBacked.license_file p = FileBacked.Unreadable
     ∨ FileBacked.license_file p = FileBacked.Malformed →
       FileBacked.getLicenses p = ∅).
Proof.
  split; [reflexivity |]. unfold FileBacked.getLicenses. split.
  - by intros licenses ->.
  - by intros [-> | ->].
Qed.

Lemma admin_lists_what_is_read_witness :
  let p := FileBacked.run Sample.file_history FileBacked.initial in
  FileBacked.getLicenses p = {[Sample.key := Sample.activated_record]}.
Proof.
  intros p.
  apply (proj1 (proj2 (admin_lists_what_is_read p))).
  vm_compute. reflexivity.
Defined.

(** C9 (as stated) fails: with an unreadable license file the listing
    answers 200 with an empty object, not 500. *)
Lemma admin_unreadable_is_not_500 :
  ¬ (∀ p, FileBacked.license_file p = FileBacked.Unreadable →
          Model.code (FileBacked.admin p).1 = 500).
Proof.
  intros H.
  specialize (H (FileBacked.Process FileBacked.Unreadable None ∅) eq_refl).
  discriminate H.
Qed.

(** C10. In the file-backed variant, when the license file is unreadable or
    is not JSON, [getLicenses] returns the empty mapping, so for every key
    the server had persisted the activation and the verification answer 404
    (not 500) and leave everything as it is, and the listing answers 200
    with an empty object. *)
Theorem damaged_file_forgets (p : FileBacked.process) (f : FileBacked.file)
    (k d : string) (now : Model.timestamp) (w : bool) :
  FileBacked.reachable p →
  is_Some (FileBacked.getLicenses p !! k) →
  f = FileBacked.Unreadable ∨ f = FileBacked.Malformed →
  d ≠ EmptyString →
  let p' := FileBacked.damaged f p in
  FileBacked.getLicenses p' = ∅
  ∧ FileBacked.activate now w (Model.json_body k d) p' = (Model.not_found, p')
  ∧ FileBacked.verify (Model.json_body k d) p' = (Model.not_found, p')
  ∧ FileBacked.admin p' = (Model.Response 200 (Model.Listing ∅), p').
Proof.
  intros Hp Hk Hf Hd p'.
  destruct (file_keys_generated p Hp k Hk) as [rest ->].
  pose proof (getLicenses_damaged f p Hf) as Hempty. fold p' in Hempty.
  assert (FileBacked.truthy_value
            (FileBacked.index p' (FileBacked.getLicenses p') ("TEST" +:+ "-" +:+ rest))
          = None) as Hnone
    by (rewrite Hempty; apply test_key_not_inherited).
  split; [done |]. split; [| split].
  - by apply file_activate_unknown.
  - by apply file_verify_unknown.
  - unfold FileBacked.admin. by rewrite Hempty.
Qed.

Lemma damaged_file_forgets_witness :
  let p' := FileBacked.damaged FileBacked.Malformed
              (FileBacked.run Sample.file_history FileBacked.initial) in
  FileBacked.getLicenses p' = ∅
  ∧ FileBacked.activate 5 true (Model.json_body Sample.key "device-1") p'
    = (Model.not_found, p')
  ∧ FileBacked.verify (Model.json_body Sample.key "device-1") p' = (Model.not_found, p')
  ∧ FileBacked.admin p' = (Model.Response 200 (Model.Listing ∅), p').
Proof.
  apply (damaged_file_forgets
           (FileBacked.run Sample.file_history FileBacked.initial)
           FileBacked.Malformed Sample.key "device-1" 5 true).
  - by exists Sample.file_history.
  - vm_compute. eauto.
  - by right.
  - discriminate.
Defined.

Example toString36_example : Js.toString36 1730592000000 = "m30tslc0".
Proof. vm_compute. reflexivity. Qed.

(** The end-to-end example of the specification, on both variants: issue,
    activate with [device-1], verify with [device-1] and with [device-2],
    activate with [device-2]. *)
Example end_to_end_file :
  let p1 := (FileBacked.issue (KeyGen.RandomBytes Sample.bytes) 1 true FileBacked.initial).2 in
  let p2 := (FileBacked.activate 2 true (Model.json_body Sample.key "device-1") p1).2 in
  (FileBacked.issue (KeyGen.RandomBytes Sample.bytes) 1 true FileBacked.initial).1
    = Model.Response 201 (Model.LicenseKey Sample.key)
  ∧ (FileBacked.activate 2 true (Model.json_body Sample.key "device-1") p1).1
    = Model.now_activated
  ∧ FileBacked.verify (Model.json_body Sample.key "device-1") p2 = (Model.valid, p2)
  ∧ FileBacked.verify (Model.json_body Sample.key "device-2") p2 = (Model.device_mismatch, p2)
  ∧ FileBacked.activate 3 true (Model.json_body Sample.key "device-2") p2
    = (Model.other_device, p2).
Proof. vm_compute. auto 10. Qed.

Example end_to_end_docstore :
  let env := Sample.issue_env (KeyGen.RandomBytes Sample.bytes) 1 in
  let c1 := (DocStore.issue env ∅).2 in
  let c2 := (DocStore.activate None None 2 (Model.json_body Sample.key "device-1") c1).2 in
  (DocStore.issue env ∅).1 = Model.Response 201 (Model.LicenseKey Sample.key)
  ∧ (DocStore.activate None None 2 (Model.json_body Sample.key "device-1") c1).1
    = Model.now_activated
  ∧ DocStore.verify None (Model.json_body Sample.key "device-1") c2 = (Model.valid, c2)
  ∧ DocStore.verify None (Model.json_body Sample.key "device-2") c2
    = (Model.device_mismatch, c2)
  ∧ DocStore.activate None None 3 (Model.json_body Sample.key "device-2") c2
    = (Model.other_device, c2)
  ∧ DocStore.verify None (Model.json_body "constructor" "device-1") c2
    = (Model.not_found, c2).
Proof. vm_compute. auto 10. Qed.

(** What the activation of [constructor] leaves behind in the file-backed
    variant: a license that no record holds, valid for [device-1] and
    refused for [device-2], until the process ends. *)
Example inherited_name_stays_activated :
  let p := (FileBacked.activate 1 true (Model.json_body "constructor" "device-1")
              FileBacked.initial).2 in
  FileBacked.getLicenses p = ∅
  ∧ FileBacked.verify (Model.json_body "constructor" "device-1") p = (Model.valid, p)
  ∧ FileBacked.activate 2 true (Model.json_body "constructor" "device-2") p
    = (Model.other_device, p).
Proof. vm_compute. auto. Qed.

(* ===================================================================== *)
(** * More on the key generator                                          *)
(* ===================================================================== *)

Section KeyGenMore.
Import KeyGen Decode.

Lemma byte_of_hex_of_byte (b : byte) :
  byte_of_hex (Js.upper_ascii (Js.digit (Byte.to_N b / 16)))
              (Js.upper_ascii (Js.digit (Byte.to_N b mod 16))) = Some b.
Proof. destruct b; reflexivity. Qed.

Lemma hex_digits_inj (a b : byte) :
  Js.upper_ascii (Js.digit (Byte.to_N a / 16)) = Js.upper_ascii (Js.digit (Byte.to_N b / 16)) →
  Js.upper_ascii (Js.digit (Byte.to_N a mod 16)) = Js.upper_ascii (Js.digit (Byte.to_N b mod 16)) →
  a = b.
Proof.
  intros Hhi Hlo.
  pose proof (byte_of_hex_of_byte a) as Ha. rewrite Hhi, Hlo, byte_of_hex_of_byte in Ha.
  by injection Ha.
Qed.

Lemma substring_all (s : string) : String.substring 0 (String.length s) s = s.
Proof. induction s as [|c s IH]; simpl; [done | by rewrite IH]. Qed.

(** [s.substring(-4)] is the whole of [s]. *)
Lemma substring_negative_start (s : string) : Js.substring (-4) None s = s.
Proof.
  unfold Js.substring, Js.clamp. simpl Z.max. simpl Z.to_nat.
  rewrite Nat.min_0_r, Nat.min_0_l, Nat.max_0_l, Nat.sub_0_r.
  apply substring_all.
Qed.

Lemma value36_from_app (acc : N) (s t : string) :
  value36_from acc (s +:+ t) = value36_from (value36_from acc s) t.
Proof. revert acc. induction s as [|c s IH]; intros acc; simpl; [done | apply IH]. Qed.

Lemma digit_value_digit (n : N) : (n < 36)%N → digit_value (Js.digit n) = n.
Proof.
  intros Hn. unfold digit_value, Js.digit.
  destruct (N.ltb_spec n 10).
  - rewrite N_ascii_embedding by lia.
    destruct (N.ltb_spec (48 + n) 58); lia.
  - rewrite N_ascii_embedding by lia.
    destruct (N.ltb_spec (87 + n) 58); lia.
Qed.

Lemma append_snoc (s : string) (c : ascii) (t : string) :
  (s +:+ String c EmptyString) +:+ t = s +:+ String c t.
Proof.
  induction s as [|c' s IH]; [done |].
  change (String c' ((s +:+ String c EmptyString) +:+ t) = String c' (s +:+ String c t)).
  by f_equal.
Qed.

(** With enough fuel the digits put before [acc] stand for [n]. *)
Lemma base36_pos_value (fuel : nat) (n : N) (acc : string) :
  (n < 36 ^ N.of_nat fuel)%N →
  ∃ ds, Js.base36_pos fuel n acc = ds +:+ acc ∧ value36_from 0%N ds = n.
Proof.
  revert n acc. induction fuel as [|fuel IH]; intros n acc Hn.
  - exists EmptyString. simpl in *. split; [done | lia].
  - cbn [Js.base36_pos]. cbv zeta. destruct (N.ltb_spec n 36) as [Hlt | Hge].
    + exists (String (Js.digit (n mod 36)) EmptyString). split; [done |].
      simpl. rewrite digit_value_digit by (apply N.mod_lt; lia).
      rewrite N.mod_small by done. lia.
    + destruct (IH (n / 36)%N (String (Js.digit (n mod 36)) acc)) as (ds & Hds & Hval).
      { apply N.Div0.div_lt_upper_bound.
        rewrite Nat2N.inj_succ, N.pow_succ_r' in Hn. lia. }
      exists (ds +:+ String (Js.digit (n mod 36)) EmptyString). split.
      * by rewrite Hds, append_snoc.
      * rewrite value36_from_app, Hval. simpl.
        rewrite digit_value_digit by (apply N.mod_lt; lia).
        pose proof (N.div_mod n 36). lia.
Qed.

Lemma toString36_fuel (n : N) : (n < 36 ^ N.of_nat (S (N.to_nat (N.log2 n))))%N.
Proof.
  rewrite Nat2N.inj_succ, N2Nat.id.
  destruct (N.eq_dec n 0%N) as [-> | Hpos]; [done |].
  assert (n < 2 ^ N.succ (N.log2 n))%N by (apply N.log2_spec; lia).
  assert (2 ^ N.succ (N.log2 n) <= 36 ^ N.succ (N.log2 n))%N
    by (apply N.pow_le_mono_l; lia).
  lia.
Qed.

(** [toString(36)] can be read back. *)
Lemma value36_toString36 (n : N) : value36 (Js.toString36 n) = n.
Proof.
  unfold value36, Js.toString36.
  destruct (base36_pos_value _ n EmptyString (toString36_fuel n)) as (ds & Hds & Hval).
  rewrite Hds. clear Hds. rewrite value36_from_app. by rewrite Hval.
Qed.

Lemma append_split (s1 s2 t1 t2 : string) :
  String.length s1 = String.length s2 →
  s1 +:+ t1 = s2 +:+ t2 → s1 = s2 ∧ t1 = t2.
Proof.
  revert s2. induction s1 as [|c s1 IH]; intros [|c' s2]; simpl; try done.
  intros [= Hlen] [= -> H]. destruct (IH s2 Hlen H) as [-> ->]. done.
Qed.

End KeyGenMore.

Section KeyGenInjective.
Import KeyGen Decode.

(** Four bytes can be read back from their upper-case hex rendering. *)
Lemma four_bytes_inj (a1 a2 a3 a4 b1 b2 b3 b4 : byte) :
  Js.toUpperCase (Js.hex [a1; a2; a3; a4]) = Js.toUpperCase (Js.hex [b1; b2; b3; b4]) →
  a1 = b1 ∧ a2 = b2 ∧ a3 = b3 ∧ a4 = b4.
Proof.
  unfold Js.hex, Js.hex_of_byte. cbv zeta. simpl.
  intros [= ? ? ? ? ? ? ? ?]. repeat split; by apply hex_digits_inj.
Qed.

(** The sections of a key made of twelve bytes, as renderings of four
    bytes each. *)
Lemma key_of_twelve_bytes prefix a1 a2 a3 a4 b1 b2 b3 b4 c1 c2 c3 c4 :
  generateLicenseKey prefix (RandomBytes [a1; a2; a3; a4; b1; b2; b3; b4; c1; c2; c3; c4])
  = prefix +:+ "-" +:+ Js.toUpperCase (Js.hex [a1; a2; a3; a4]) +:+ "-" +:+
    Js.toUpperCase (Js.hex [b1; b2; b3; b4]) +:+ "-" +:+
    Js.toUpperCase (Js.hex [c1; c2; c3; c4]).
Proof. reflexivity. Qed.

End KeyGenInjective.

(** X1. With the same prefix, two keys generated from twelve random bytes
    are equal only if the bytes are: the key carries all 96 bits of the
    entropy it was made of. *)
Theorem generated_key_injective (prefix : string) (e e' : KeyGen.entropy) :
  Decode.twelve_bytes e → Decode.twelve_bytes e' →
  KeyGen.generateLicenseKey prefix e = KeyGen.generateLicenseKey prefix e' →
  e = e'.
Proof.
  destruct e as [bs |]; [| done]. destruct e' as [bs' |]; [| done].
  cbn [Decode.twelve_bytes]. intros Hbs Hbs'.
  destruct bs as [|a1 [|a2 [|a3 [|a4 [|b1 [|b2 [|b3 [|b4 [|c1 [|c2 [|c3 [|c4 [|]]]]]]]]]]]]];
    try discriminate Hbs.
  destruct bs' as [|x1 [|x2 [|x3 [|x4 [|y1 [|y2 [|y3 [|y4 [|z1 [|z2 [|z3 [|z4 [|]]]]]]]]]]]]];
    try discriminate Hbs'.
  rewrite !key_of_twelve_bytes. intros H.
  apply append_inv_head in H. apply (append_inv_head "-") in H.
  apply append_split in H as [H1 H]; [| reflexivity].
  apply (append_inv_head "-") in H.
  apply append_split in H as [H2 H]; [| reflexivity].
  apply (append_inv_head "-") in H.
  apply four_bytes_inj in H1 as (-> & -> & -> & ->).
  apply four_bytes_inj in H2 as (-> & -> & -> & ->).
  apply four_bytes_inj in H as (-> & -> & -> & ->).
  reflexivity.
Qed.

Lemma generated_key_injective_witness :
  KeyGen.RandomBytes Sample.bytes = KeyGen.RandomBytes Sample.bytes.
Proof.
  apply (generated_key_injective "TEST"); reflexivity.
Defined.

(** X2. [generateSecureLicenseKey] draws sixteen random bytes and puts the
    first twelve into the key: the key is the one [generateLicenseKey]
    makes of those twelve, whatever the other bytes are. *)
Theorem secure_key_uses_twelve_bytes (productCode : string) (bytes rest : list byte) :
  List.length bytes = 12%nat →
  KeyGen.generateSecureLicenseKey productCode (bytes ++ rest)
  = KeyGen.generateLicenseKey productCode (KeyGen.RandomBytes bytes).
Proof.
  intros Hlen.
  destruct bytes as [|a1 [|a2 [|a3 [|a4 [|b1 [|b2 [|b3 [|b4 [|c1 [|c2 [|c3 [|c4 [|]]]]]]]]]]]]];
    try discriminate Hlen.
  rewrite key_of_twelve_bytes.
  unfold KeyGen.generateSecureLicenseKey, Js.substr, Js.hex_of_byte. simpl.
  by rewrite substring_nothing.
Qed.

Lemma secure_key_uses_twelve_bytes_witness :
  KeyGen.generateSecureLicenseKey "PRO" (Sample.bytes ++ [x01; x02; x03; x04])
  = KeyGen.generateSecureLicenseKey "PRO" (Sample.bytes ++ [xff; xfe; xfd; xfc]).
Proof.
  rewrite (secure_key_uses_twelve_bytes "PRO" Sample.bytes [x01; x02; x03; x04] eq_refl).
  rewrite (secure_key_uses_twelve_bytes "PRO" Sample.bytes [xff; xfe; xfd; xfc] eq_refl).
  reflexivity.
Defined.

(** X3. The retry prefix holds the complete base-36 rendering of the clock
    reading ([substring(-4)] cuts nothing off), so the clock reading can be
    read back from it and prefixes of different milliseconds differ. *)
Theorem retry_prefix_injective (now now' : Model.timestamp) :
  0 <= now → 0 <= now' →
  DocStore.retry_prefix now = "TEST-" +:+ Js.toString36 (Z.to_N now)
  ∧ (DocStore.retry_prefix now = DocStore.retry_prefix now' → now = now').
Proof.
  intros Hnow Hnow'. unfold DocStore.retry_prefix. rewrite !substring_negative_start.
  split; [done |]. intros H%(append_inv_head "TEST-").
  apply (f_equal Decode.value36) in H. rewrite !value36_toString36 in H. lia.
Qed.

Lemma retry_prefix_injective_witness :
  DocStore.retry_prefix 1730592000000 = "TEST-m30tslc0".
Proof.
  rewrite (proj1 (retry_prefix_injective 1730592000000 1730592000000
                    ltac:(lia) ltac:(lia))).
  vm_compute. reflexivity.
Defined.

(** X4. A key of the retry is never a key of a first attempt (it is longer),
    so the one retry can only be refused for a key that an earlier retry
    has put into the collection. *)
Theorem retry_key_is_no_first_key (e1 e2 : KeyGen.entropy) (now : Model.timestamp) :
  Decode.twelve_bytes e1 → Decode.twelve_bytes e2 →
  KeyGen.generateLicenseKey (DocStore.retry_prefix now) e2
  ≠ KeyGen.generateLicenseKey "TEST" e1.
Proof.
  destruct e1 as [bs1 |]; [| done]. destruct e2 as [bs2 |]; [| done].
  cbn [Decode.twelve_bytes]. intros H1 H2 Heq.
  pose proof (key_format_length _ _
    (sections_of_bytes "TEST" bs1 ltac:(lia))) as L1.
  pose proof (key_format_length _ _
    (sections_of_bytes (DocStore.retry_prefix now) bs2 ltac:(lia))) as L2.
  cbv zeta in L1, L2. unfold KeyGen.generateLicenseKey in Heq.
  rewrite Heq in L2. rewrite L1 in L2.
  unfold DocStore.retry_prefix in L2. rewrite length_append in L2.
  simpl in L2. lia.
Qed.

Lemma retry_key_is_no_first_key_witness :
  KeyGen.generateLicenseKey (DocStore.retry_prefix 1730592000000)
    (KeyGen.RandomBytes Sample.bytes)
  ≠ KeyGen.generateLicenseKey "TEST" (KeyGen.RandomBytes Sample.bytes).
Proof.
  apply (retry_key_is_no_first_key (KeyGen.RandomBytes Sample.bytes)
           (KeyGen.RandomBytes Sample.bytes) 1730592000000); reflexivity.
Defined.

(* ===================================================================== *)
(** * More on the document-store variant                                 *)
(* ===================================================================== *)

Section DocStoreMore.
Import Model KeyGen.



End DocStoreMore.







Section Final.
Import Model.






End Final.






(* ===================================================================== *)
(** * The lifecycle of one license                                       *)
(* ===================================================================== *)

Section OneLicense.
Import Model KeyGen.



End OneLicense.











(* ===================================================================== *)
(** * The claims of the interface on the document store                  *)
(* ===================================================================== *)

Section Present.
Import Model.



End Present.









(* ===================================================================== *)
(** * Activations that overlap                                           *)
(* ===================================================================== *)

(** The activation of the document store is its lookup followed by its
    save when no other request is served between the two awaits. *)
Lemma activate_is_lookup_then_save find call now req (c : gmap string Model.license) :
  DocStore.activate find call now req c
  = match Awaits.lookup find req c with
    | Awaits.Answered r => (r, c)
    | Awaits.Saving k d => Awaits.save call now k d c
    end.
Proof.
  unfold DocStore.activate, Awaits.lookup, Awaits.save.
  destruct (Model.truthy (Model.body_licenseKey req)) as [k |]; [| done].
  destruct (Model.truthy (Model.body_deviceId req)) as [d |]; [| done].
  destruct find; [done |]. destruct (c !! k) as [l |] eqn:Hl; [| done].
  destruct (Model.activated l); [by destruct (decide _) |].
  destruct call; [done |]. by rewrite Hl.
Qed.

(** C3 (code defect, document-store variant). Two activations of the same
    pending license overlap: both look the license up before either saves.
    Both are answered 200 "activated"; after the first save the record is
    activated and bound to [device-1], and the second save changes its
    device to [device-2]. *)
Theorem overlapping_activations_rebind :
  let c0 : gmap string Model.license := {[Sample.key := Model.pending 1]} in
  let first := Awaits.lookup None (Model.json_body Sample.key "device-1") c0 in
  let second := Awaits.lookup None (Model.json_body Sample.key "device-2") c0 in
  let saved1 := Awaits.save None 2 Sample.key "device-1" c0 in
  let saved2 := Awaits.save None 3 Sample.key "device-2" saved1.2 in
  first = Awaits.Saving Sample.key "device-1"
  ∧ second = Awaits.Saving Sample.key "device-2"
  ∧ saved1.1 = Model.now_activated
  ∧ Model.bound_to saved1.2 Sample.key "device-1"
  ∧ saved2.1 = Model.now_activated
  ∧ Model.bound_to saved2.2 Sample.key "device-2".
Proof.
  vm_compute. repeat split; eexists; repeat split; reflexivity.
Qed.

(* ===================================================================== *)
(** * Requests with string fields inside requests of any JSON type       *)
(* ===================================================================== *)

Section Embedding.
Import Model.

Lemma string_eqb_decide (a b : string) : String.eqb a b = bool_decide (a = b).
Proof.
  destruct (String.eqb_spec a b) as [-> | Hne].
  - by rewrite bool_decide_eq_true_2.
  - by rewrite bool_decide_eq_false_2.
Qed.

Lemma wire_truthy_of_field (f : field) :
  match Wire.of_field f with
  | Some v => if Wire.truthy v then Some v else None
  | None => None
  end = Wire.JStr <$> truthy f.
Proof.
  destruct f as [| | s]; cbn; [done.. |].
  destruct (String.eqb_spec s EmptyString) as [-> | Hne]; cbn; [done |].
  by destruct (decide (s = EmptyString)).
Qed.

Lemma wire_getLicenses (p : FileBacked.process) :
  Wire.getLicenses (Wire.of_process p) = Wire.of_license <$> FileBacked.getLicenses p.
Proof.
  unfold Wire.getLicenses, FileBacked.getLicenses, Wire.of_process. cbn.
  destruct (FileBacked.license_file p); cbn;
    [symmetry; apply fmap_empty | symmetry; apply fmap_empty | done].
Qed.

Lemma wire_index (p : FileBacked.process) (m : gmap string license) (k : string) :
  Wire.truthy_value (Wire.index (Wire.of_process p) (Wire.of_license <$> m) k)
  = Wire.of_value <$> FileBacked.truthy_value (FileBacked.index p m k).
Proof.
  unfold Wire.index, FileBacked.index. rewrite lookup_fmap.
  destruct (m !! k) as [r |]; [done |]. cbn.
  destruct (decide (k = "__proto__")); [done |].
  destruct (decide (k ∈ FileBacked.methods)); [done |].
  destruct (FileBacked.object_prototype p) as [b |]; [| done]. cbn.
  destruct (decide (k = "activated")); [done |].
  destruct (decide (k = "deviceId")).
  - cbn.
    destruct (String.eqb_spec (FileBacked.bound_deviceId b) EmptyString) as [Hb | Hb];
      cbn; destruct (decide (FileBacked.bound_deviceId b = EmptyString)); done.
  - by destruct (decide (k = "activationDate")).
Qed.

Lemma wire_get_activated (p : FileBacked.process) (v : FileBacked.value) :
  Wire.get_activated (Wire.of_process p) (Wire.of_value v) = FileBacked.get_activated p v.
Proof.
  assert (bool_decide (is_Some (Wire.object_prototype (Wire.of_process p)))
          = bool_decide (is_Some (FileBacked.object_prototype p))) as Hproto.
  { cbn. by destruct (FileBacked.object_prototype p). }
  destruct v; cbn; try done.
  rewrite lookup_fmap. destruct (FileBacked.builtins p !! name); [done |]. cbn.
  by destruct (FileBacked.object_prototype p).
Qed.

End Embedding.

Section EmbeddingSteps.
Import Model.

Lemma strict_equal_strings (a b : string) :
  Wire.strict_equal (Wire.JStr a) (Wire.JStr b) = bool_decide (Some a = Some b).
Proof.
  cbn. destruct (String.eqb_spec a b) as [-> | Hne].
  - by rewrite bool_decide_eq_true_2.
  - rewrite bool_decide_eq_false_2; [done | congruence].
Qed.

(** [inherited] marks a device that the request has read from
    [Object.prototype]: it is then the device bound there. *)
Lemma wire_same_device (p : FileBacked.process) (v : FileBacked.value)
    (d : string) (inherited : bool) :
  (inherited = true →
   FileBacked.bound_deviceId <$> FileBacked.object_prototype p = Some d) →
  Wire.same_device (Wire.get_deviceId (Wire.of_process p) (Wire.of_value v))
                   (Wire.JStr d) inherited
  = bool_decide (FileBacked.get_deviceId p v = Some d).
Proof.
  intros Hinh.
  assert (Wire.same_device
            match Wire.object_prototype (Wire.of_process p) with
            | Some b => Wire.OfPrototype (Wire.bound_deviceId b)
            | None => Wire.Undefined
            end (Wire.JStr d) inherited
          = bool_decide (FileBacked.bound_deviceId <$> FileBacked.object_prototype p
                         = Some d)) as Hproto.
  { cbn. destruct (FileBacked.object_prototype p) as [b |]; cbn in *.
    - destruct inherited.
      + by rewrite bool_decide_eq_true_2 by auto.
      + apply strict_equal_strings.
    - by rewrite bool_decide_eq_false_2. }
  destruct v as [r | | name | | s | t]; cbn [Wire.of_value Wire.get_deviceId
    FileBacked.get_deviceId]; try exact Hproto.
  - cbn [Wire.of_license Wire.deviceId].
    destruct (deviceId r) as [d' |]; cbn [fmap option_fmap option_map].
    + apply strict_equal_strings.
    + exact Hproto.
  - cbn [Wire.of_process Wire.builtins]. rewrite lookup_fmap.
    destruct (FileBacked.builtins p !! name) as [b |]; cbn [fmap option_fmap option_map].
    + apply strict_equal_strings.
    + exact Hproto.
Qed.

Lemma wire_saveLicenses w (m : gmap string license) (p : FileBacked.process) :
  Wire.saveLicenses w (Wire.of_license <$> m) (Wire.of_process p)
  = ((FileBacked.saveLicenses w m p).1,
     Wire.of_process (FileBacked.saveLicenses w m p).2).
Proof. by destruct w. Qed.

Lemma wire_assign k d now (v : FileBacked.value) (m : gmap string license)
    (p : FileBacked.process) :
  Wire.assign k (Wire.JStr d) now (Wire.of_value v) (Wire.of_license <$> m)
              (Wire.of_process p)
  = (Wire.of_license <$> (FileBacked.assign k d now v m p).1,
     Wire.of_process (FileBacked.assign k d now v m p).2).
Proof.
  destruct v as [r | | name | | s | t]; cbn; try done.
  - by rewrite fmap_insert.
  - unfold Wire.of_process. cbn. by rewrite fmap_insert.
Qed.

End EmbeddingSteps.
